(** * OpenAIClient: request assembly, response unwrapping and cost totals

    A shallow embedding of [src/openai_client.py].  Every method of the
    class [OpenAIClient] is a definition of the same name.  Methods that
    print, mutate [self] or may raise run in the monad [M]: a state
    (the client object and the lines written to stdout) threaded through a
    computation that ends in a value or in a raised Python exception. *)

From Stdlib Require Import String Ascii ZArith NArith QArith Lqa List Bool Lia.
From Stdlib.Strings Require Import Byte.
From stdpp Require Import base option list strings gmap pretty.
Import ListNotations.

Local Open Scope string_scope.
Local Open Scope list_scope.

(** ** Python values used by the client *)

(** Truthiness, as tested by [if x:]. *)
Definition truthy_str (s : string) : bool :=
  match s with EmptyString => false | String _ _ => true end.

Definition truthy_opt_str (o : option string) : bool :=
  match o with None => false | Some s => truthy_str s end.

Definition truthy_opt_int (o : option Z) : bool :=
  match o with None => false | Some n => negb (Z.eqb n 0) end.

(** An object that defines neither [__bool__] nor [__len__] (the class
    handed in as [response_format], a response object) is truthy; only
    [None] is not. *)
Definition truthy_opt_obj {A : Type} (o : option A) : bool :=
  match o with None => false | Some _ => true end.

(** [bool(x)] for the instances of a class, by Python's truth protocol:
    [__bool__] if the class defines it, else [__len__() != 0], else true. *)
Class Truthy (A : Type) : Type := truthy : A -> bool.

(** A [str] is truthy when it is not empty. *)
#[export] Instance str_Truthy : Truthy string := truthy_str.

(** Truthiness of an attribute that is [None] or an instance. *)
Definition truthy_opt {A : Type} `{Truthy A} (o : option A) : bool :=
  match o with None => false | Some x => truthy x end.

(** [needle in hay] on two [str]: substring search. *)
Fixpoint str_contains (needle hay : string) : bool :=
  String.prefix needle hay ||
  match hay with
  | EmptyString => false
  | String _ hay' => str_contains needle hay'
  end.

(** ** [base64.b64encode(...).decode('utf-8')] *)

Definition b64_alphabet : string :=
  "ABCDEFGHIJKLMNOPQRSTUVWXYZabcdefghijklmnopqrstuvwxyz0123456789+/".

Definition b64_char (i : N) : ascii :=
  match String.get (N.to_nat i) b64_alphabet with
  | Some c => c
  | None => "="%char
  end.

Fixpoint b64encode (bs : list byte) : string :=
  match bs with
  | [] => ""
  | [a] =>
      let x := Byte.to_N a in
      String (b64_char (x / 4))
        (String (b64_char ((x mod 4) * 16)) "==")
  | [a; b] =>
      let x := Byte.to_N a in
      let y := Byte.to_N b in
      String (b64_char (x / 4))
        (String (b64_char ((x mod 4) * 16 + y / 16))
           (String (b64_char ((y mod 16) * 4)) "="))
  | a :: b :: c :: rest =>
      let x := Byte.to_N a in
      let y := Byte.to_N b in
      let z := Byte.to_N c in
      String (b64_char (x / 4))
        (String (b64_char ((x mod 4) * 16 + y / 16))
           (String (b64_char ((y mod 16) * 4 + z / 64))
              (String (b64_char (z mod 64)) (b64encode rest))))
  end.

(** ** Messages *)

(** The two dict literals that [_prepare_messages] puts in a content list. *)
Inductive part : Type :=
  | text_part (text : string)
      (* {"type": "text", "text": text} *)
  | image_url_part (url : string).
      (* {"type": "image_url", "image_url": {"url": url}} *)

(** The value under a message's ["content"] key: a [str] or a [list]. *)
Inductive content_t : Type :=
  | Str (s : string)
  | Parts (ps : list part).

(** A message dict.  [msg_content] is [None] when the dict has no
    ["content"] key (the case the comprehension of line 72 filters). *)
Record message : Type := Message {
  role : string;
  msg_content : option content_t
}.

(** [dict == str] is always [False]. *)
Definition part_eq_str (p : part) (s : string) : bool := false.

(** [needle in c] for the value under ["content"]: substring search on a
    [str], element equality on a [list]. *)
Definition py_in (needle : string) (c : content_t) : bool :=
  match c with
  | Str s => str_contains needle s
  | Parts ps => existsb (fun p => part_eq_str p needle) ps
  end.

(** ** Exceptions and the state-and-exception monad *)

Inductive exn : Type :=
  | TypeError (item : nat)
      (* "sequence item <item>: expected str instance, list found" *)
  | KeyError (key : string).

Inductive outcome (A : Type) : Type :=
  | Ok (a : A)
  | Raise (e : exn).
Arguments Ok {A} a.
Arguments Raise {A} e.

(** [''.join(items)]: every item must be a [str]. *)
Fixpoint join_from (i : nat) (items : list content_t) : outcome string :=
  match items with
  | [] => Ok ""
  | Str s :: rest =>
      match join_from (S i) rest with
      | Ok t => Ok (s +:+ t)
      | Raise e => Raise e
      end
  | Parts _ :: _ => Raise (TypeError i)
  end.

Definition join (items : list content_t) : outcome string := join_from 0 items.

(** [[msg['content'] for msg in messages if 'content' in msg]] *)
Definition contents_present (messages : list message) : list content_t :=
  omap msg_content messages.

(** [any("image_url" in msg['content'] for msg in messages)]: the generator
    is consumed until the first true item; a message without ["content"]
    met before that raises [KeyError]. *)
Fixpoint any_image_url (messages : list message) : outcome bool :=
  match messages with
  | [] => Ok false
  | msg :: rest =>
      match msg_content msg with
      | None => Raise (KeyError "content")
      | Some c => if py_in "image_url" c then Ok true else any_image_url rest
      end
  end.

(** Lines 72-73 of [_calculate_cost]: the two arguments handed to
    [calculate_prompt_cost]. *)
Definition prompt_cost_args (messages : list message) : outcome (string * bool) :=
  match join (contents_present messages) with
  | Raise e => Raise e
  | Ok full_prompt =>
      match any_image_url messages with
      | Raise e => Raise e
      | Ok has_image => Ok (full_prompt, has_image)
      end
  end.

(** ** Float arithmetic

    Costs are Python floats.  The client only adds them, compares nothing and
    prints them with [:.6f]; the development is parametric in the number
    type.  [PyFloatOrder] lists the order facts used for the totals; each is
    stated for non-negative operands only. *)
Class PyFloat (F : Type) : Type := {
  fzero : F;
  fadd : F -> F -> F;
  fle : F -> F -> Prop;
  fmt6 : F -> string
}.

Class PyFloatOrder (F : Type) `{PyFloat F} : Prop := {
  fle_zero : fle fzero fzero;
  fle_refl_nonneg : forall x, fle fzero x -> fle x x;
  fadd_nonneg : forall x c, fle fzero x -> fle fzero c -> fle fzero (fadd x c);
  fadd_incr : forall x c, fle fzero x -> fle fzero c -> fle x (fadd x c)
}.

(** ** The response object of [openai.beta.chat.completions.parse] *)

Section Client.

Context {F : Type} `{PyFloat F}.
(** The class handed in as [response_format], and its instances (the type
    of [message.parsed]) with their truth value. *)
Context {schema parsed_t : Type} `{Truthy parsed_t}.

Record ParsedChatCompletionMessage : Type := {
  content : option string;
  parsed : option parsed_t;
  refusal : option string
}.

Record ParsedChoice : Type := { message_of : ParsedChatCompletionMessage }.

Record ParsedChatCompletion : Type := { choices : list ParsedChoice }.

(** Values stored in the [api_payload] dict. *)
Inductive pval : Type :=
  | PStr (s : string)
  | PMessages (ms : list message)
  | PSchema (rf : schema)
  | PInt (n : Z).

(** ** The world outside the client

    [open_rb path] is [open(path, "rb").read()]: the bytes, or the text of
    the exception raised.  [parse payload] is
    [openai.beta.chat.completions.parse], called with the payload as keyword
    arguments: the response, or the
    text of the exception raised. *)
Record World : Type := {
  open_rb : string -> string + list byte;
  parse : gmap string pval -> string + ParsedChatCompletion
}.

(** ** The client object

    [CostCalculator] stands for the class imported from [cost_calculator],
    which is not part of the translated file: its two methods are fields. *)
Record CostCalculator : Type := {
  calculate_prompt_cost : string -> bool -> F;
  calculate_completion_cost : option string -> F
}.

Record OpenAIClient : Type := {
  model : string;
  cost_calculator : CostCalculator;
  total_prompt_cost : F;
  total_completion_cost : F
}.

(** [CostCalculator(self.model)]; [None] when the constructor raises. *)
Variable CostCalculator_new : string -> option CostCalculator.

Definition __init__ (model : string) : option OpenAIClient :=
  match CostCalculator_new model with
  | None => None
  | Some calc =>
      Some {| model := model;
              cost_calculator := calc;
              total_prompt_cost := fzero;
              total_completion_cost := fzero |}
  end.

(** The state a method runs in: the client and the lines printed so far. *)
Record State : Type := {
  self : OpenAIClient;
  stdout : list string
}.

Definition M (A : Type) : Type := State -> outcome A * State.

Definition ret {A : Type} (a : A) : M A := fun st => (Ok a, st).

Definition bind {A B : Type} (m : M A) (k : A -> M B) : M B :=
  fun st =>
    match m st with
    | (Ok a, st') => k a st'
    | (Raise e, st') => (Raise e, st')
    end.

Definition lift {A : Type} (o : outcome A) : M A := fun st => (o, st).

Definition get_self : M OpenAIClient := fun st => (Ok (self st), st).

Definition print (line : string) : M unit :=
  fun st => (Ok tt, {| self := self st; stdout := stdout st ++ [line] |}).

(** [self.total_prompt_cost += x] *)
Definition add_total_prompt_cost (x : F) : M unit :=
  fun st =>
    let c := self st in
    (Ok tt,
     {| self := {| model := model c;
                   cost_calculator := cost_calculator c;
                   total_prompt_cost := fadd (total_prompt_cost c) x;
                   total_completion_cost := total_completion_cost c |};
        stdout := stdout st |}).

(** [self.total_completion_cost += x] *)
Definition add_total_completion_cost (x : F) : M unit :=
  fun st =>
    let c := self st in
    (Ok tt,
     {| self := {| model := model c;
                   cost_calculator := cost_calculator c;
                   total_prompt_cost := total_prompt_cost c;
                   total_completion_cost := fadd (total_completion_cost c) x |};
        stdout := stdout st |}).

Notation "x <- m ;; k" := (bind m (fun x => k))
  (at level 100, m at next level, right associativity).
Notation "m ;;; k" := (bind m (fun _ => k))
  (at level 100, right associativity).

(** ** Methods of [OpenAIClient] *)

Definition _encode_image (w : World) (image_path : string) : M (option string) :=
  match open_rb w image_path with
  | inr bytes => ret (Some (b64encode bytes))
  | inl e => print ("Error encoding image: " +:+ e) ;;; ret None
  end.

Definition _prepare_messages (w : World) (system_message user_message : string)
    (image_path : option string) : M (list message) :=
  let messages := [Message "system" (Some (Str system_message))] in
  user_content <-
    match image_path with
    | Some path =>
        if truthy_str path then
          base64_image <- _encode_image w path ;;
          match base64_image with
          | Some b64 =>
              if truthy_str b64 then
                ret (Parts [text_part user_message;
                            image_url_part ("data:image/jpeg;base64," +:+ b64)])
              else ret (Str user_message)
          | None => ret (Str user_message)
          end
        else ret (Str user_message)
    | None => ret (Str user_message)
    end ;;
  ret (messages ++ [Message "user" (Some user_content)]).

Definition _build_api_payload (messages : list message)
    (response_format : option schema) (max_completion_tokens : option Z)
    : M (gmap string pval) :=
  c <- get_self ;;
  let api_payload : gmap string pval :=
    <["messages" := PMessages messages]> {["model" := PStr (model c)]} in
  let api_payload :=
    match response_format with
    | Some rf => <["response_format" := PSchema rf]> api_payload
    | None => api_payload
    end in
  let api_payload :=
    match max_completion_tokens with
    | Some n =>
        if negb (Z.eqb n 0)
        then <["max_completion_tokens" := PInt n]> api_payload
        else api_payload
    | None => api_payload
    end in
  ret api_payload.

Definition _calculate_cost (messages : list message)
    (response : option ParsedChatCompletion) : M unit :=
  full_prompt <- lift (join (contents_present messages)) ;;
  has_image <- lift (any_image_url messages) ;;
  c <- get_self ;;
  let prompt_cost :=
    calculate_prompt_cost (cost_calculator c) full_prompt has_image in
  add_total_prompt_cost prompt_cost ;;;
  match response with
  | Some r =>
      match choices r with
      | first :: _ =>
          let completion_text := content (message_of first) in
          c <- get_self ;;
          let completion_cost :=
            calculate_completion_cost (cost_calculator c) completion_text in
          add_total_completion_cost completion_cost
      | [] => ret tt
      end
  | None => ret tt
  end.

(** What [_handle_response] returns: [message.parsed], [message.refusal],
    or the [response] argument itself (possibly [None]).  The tests of
    lines 85, 89 and 91 are truthiness tests: a response object is truthy
    unless it is [None], a list of choices unless it is empty, a parsed
    payload by the truth protocol of its class, a refusal text unless it
    is empty. *)
Inductive unwrapped : Type :=
  | ParsedResult (p : parsed_t)
  | RefusalResult (r : string)
  | RawResponse (response : option ParsedChatCompletion).

Definition _handle_response (response : option ParsedChatCompletion) : M unwrapped :=
  match response with
  | Some r =>
      match choices r with
      | first :: _ =>
          (* elif response.choices[0].message.refusal: ... return response *)
          let on_no_parsed : M unwrapped :=
            match refusal (message_of first) with
            | Some s =>
                if truthy_str s then
                  print "Model refused to process the request." ;;;
                  ret (RefusalResult s)
                else ret (RawResponse response)
            | None => ret (RawResponse response)
            end in
          (* if response.choices[0].message.parsed: *)
          match parsed (message_of first) with
          | Some p => if truthy p then ret (ParsedResult p) else on_no_parsed
          | None => on_no_parsed
          end
      | [] => ret (RawResponse response)
      end
  | None => ret (RawResponse response)
  end.

Definition _make_api_call (w : World) (api_payload : gmap string pval)
    : M (option ParsedChatCompletion) :=
  match parse w api_payload with
  | inr response => ret (Some response)
  | inl e => print ("Error calling OpenAI API: " +:+ e) ;;; ret None
  end.

Definition chat (w : World) (system_message user_message : string)
    (image_path : option string) (response_format : option schema)
    (max_completion_tokens : option Z) : M unwrapped :=
  messages <- _prepare_messages w system_message user_message image_path ;;
  api_payload <- _build_api_payload messages response_format max_completion_tokens ;;
  response <- _make_api_call w api_payload ;;
  response_result <- _handle_response response ;;
  _calculate_cost messages response ;;;
  ret response_result.

(** The three lines [print_total_costs] writes for a client. *)
Definition total_cost_lines (c : OpenAIClient) : list string :=
  let total_cost := fadd (total_prompt_cost c) (total_completion_cost c) in
  ["Total prompt cost: $" +:+ fmt6 (total_prompt_cost c);
   "Total completion cost: $" +:+ fmt6 (total_completion_cost c);
   "Overall total cost: $" +:+ fmt6 total_cost].

Definition print_total_costs : M unit :=
  c <- get_self ;;
  let total_cost := fadd (total_prompt_cost c) (total_completion_cost c) in
  print ("Total prompt cost: $" +:+ fmt6 (total_prompt_cost c)) ;;;
  print ("Total completion cost: $" +:+ fmt6 (total_completion_cost c)) ;;;
  print ("Overall total cost: $" +:+ fmt6 total_cost).

(** ** Notions used to state the properties *)

(** The payload [chat] hands to the API: steps 1 and 2. *)
Definition sent_payload (w : World) (system_message user_message : string)
    (image_path : option string) (response_format : option schema)
    (max_completion_tokens : option Z) (st : State)
    : option (gmap string pval) :=
  match (messages <- _prepare_messages w system_message user_message image_path ;;
         _build_api_payload messages response_format max_completion_tokens) st with
  | (Ok payload, _) => Some payload
  | (Raise _, _) => None
  end.

(** The two-part user content built from a text and the bytes of an image. *)
Definition two_part_content (user_message : string) (bytes : list byte) : content_t :=
  Parts [text_part user_message;
         image_url_part ("data:image/jpeg;base64," +:+ b64encode bytes)].

(** A call given [path], whose file cannot be read for the reason [e],
    degrades to a text-only call: one diagnostic line is printed, the
    messages assembled and sent carry the raw user text and no image part,
    and [chat] returns a result. *)
Definition degrades_to_text (w : World) (system_message user_message path : string)
    (response_format : option schema) (max_completion_tokens : option Z)
    (st : State) (e : string) : Prop :=
  let text_only :=
    [Message "system" (Some (Str system_message));
     Message "user" (Some (Str user_message))] in
  _prepare_messages w system_message user_message (Some path) st
  = (Ok text_only,
     {| self := self st;
        stdout := stdout st ++ ["Error encoding image: " +:+ e] |})
  /\ (exists payload,
        sent_payload w system_message user_message (Some path)
          response_format max_completion_tokens st = Some payload
        /\ payload !! "messages" = Some (PMessages text_only))
  /\ (exists result st',
        chat w system_message user_message (Some path)
          response_format max_completion_tokens st = (Ok result, st')).

(** A calculator whose two estimates are never negative. *)
Definition nonneg_calculator (k : CostCalculator) : Prop :=
  (forall full_prompt has_image,
      fle fzero (calculate_prompt_cost k full_prompt has_image))
  /\ (forall completion_text,
      fle fzero (calculate_completion_cost k completion_text)).

Definition totals_nonneg (c : OpenAIClient) : Prop :=
  fle fzero (total_prompt_cost c) /\ fle fzero (total_completion_cost c).

(** What every client a program can hold satisfies. *)
Definition cost_invariant (c : OpenAIClient) : Prop :=
  totals_nonneg c /\ nonneg_calculator (cost_calculator c).

(** The clients a program can hold: a freshly constructed one, and one
    obtained from such a client by a cost recording or by a whole [chat]
    call (whether or not it raised). *)
Inductive reachable : OpenAIClient -> Prop :=
  | reach_init model c :
      __init__ model = Some c -> reachable c
  | reach_record c messages response out :
      reachable c ->
      reachable (self (_calculate_cost messages response
                         {| self := c; stdout := out |}).2)
  | reach_chat c w system_message user_message image_path response_format
        max_completion_tokens out :
      reachable c ->
      reachable (self (chat w system_message user_message image_path
                         response_format max_completion_tokens
                         {| self := c; stdout := out |}).2).

End Client.

(** ** Properties named in the specification

    These follow the specification's words, to be compared with what the
    methods compute. *)

Definition is_image_part (p : part) : bool :=
  match p with image_url_part _ => true | text_part _ => false end.

(** A message whose content contains an image part. *)
Definition carries_image_part (msg : message) : bool :=
  match msg_content msg with
  | Some (Parts ps) => existsb is_image_part ps
  | Some (Str _) | None => false
  end.

(** "hasImage is true if any message content contains an image part". *)
Definition spec_has_image (messages : list message) : bool :=
  existsb carries_image_part messages.

Definition part_text (p : part) : string :=
  match p with text_part t => t | image_url_part _ => "" end.

(** The textual content of a message, image parts skipped. *)
Definition message_text (msg : message) : string :=
  match msg_content msg with
  | Some (Str s) => s
  | Some (Parts ps) => String.concat "" (map part_text ps)
  | None => ""
  end.

(** "concatenates the textual content of all messages that carry text". *)
Definition spec_full_prompt (messages : list message) : string :=
  String.concat "" (map message_text messages).

(** The first choice of a response, when the response is present and has
    at least one choice. *)
Definition first_choice {parsed_t : Type}
    (response : option (@ParsedChatCompletion parsed_t))
    : option (@ParsedChoice parsed_t) :=
  match response with
  | Some r => head (choices r)
  | None => None
  end.

(** The client after a cost recording that handed [full_prompt] and
    [has_image] to the prompt-cost estimator. *)
Definition charged {F : Type} `{PyFloat F} {parsed_t : Type}
    (c : @OpenAIClient F) (full_prompt : string) (has_image : bool)
    (response : option (@ParsedChatCompletion parsed_t)) : @OpenAIClient F :=
  {| model := model c;
     cost_calculator := cost_calculator c;
     total_prompt_cost :=
       fadd (total_prompt_cost c)
            (calculate_prompt_cost (cost_calculator c) full_prompt has_image);
     total_completion_cost :=
       match first_choice response with
       | Some first =>
           fadd (total_completion_cost c)
                (calculate_completion_cost (cost_calculator c)
                   (content (message_of first)))
       | None => total_completion_cost c
       end |}.

(** A message list whose contents are all present and plain [str]. *)
Definition all_plain_text (messages : list message) : Prop :=
  Forall (fun msg => exists s, msg_content msg = Some (Str s)) messages.

(** ** A concrete number type, calculator and worlds

    Rationals with exact addition stand in for the floats when the client
    is run on examples. *)

Definition round_half_even (q : Q) : Z :=
  let n := Qnum q in
  let d := Z.pos (Qden q) in
  let fl := (n / d)%Z in
  let twice_rem := (2 * (n mod d))%Z in
  if (twice_rem <? d)%Z then fl
  else if (d <? twice_rem)%Z then (fl + 1)%Z
  else if Z.even fl then fl else (fl + 1)%Z.

Definition zero_pad (width : nat) (s : string) : string :=
  String.concat "" (replicate (width - String.length s) "0") +:+ s.

(** [f"{q:.6f}"] *)
Definition fmt6_Q (q : Q) : string :=
  let m := round_half_even (q * (1000000 # 1)) in
  let a := Z.abs m in
  (if (m <? 0)%Z then "-" else "") +:+
  pretty (a / 1000000)%Z +:+ "." +:+ zero_pad 6 (pretty (a mod 1000000)%Z).

#[export] Instance Q_float : PyFloat Q := {
  fzero := 0%Q;
  fadd := Qplus;
  fle := Qle;
  fmt6 := fmt6_Q
}.

(** A calculator that counts one token per character: $0.000005 per prompt
    token, $0.000015 per completion token, 765 more prompt tokens for an
    image; an absent completion text costs nothing. *)
Definition example_calculator : @CostCalculator Q := {|
  calculate_prompt_cost := fun full_prompt has_image =>
    ((Z.of_nat (String.length full_prompt) # 1) * (5 # 1000000)
     + (if has_image then 765 # 1 else 0) * (5 # 1000000))%Q;
  calculate_completion_cost := fun completion_text =>
    match completion_text with
    | Some t => ((Z.of_nat (String.length t) # 1) * (15 # 1000000))%Q
    | None => 0%Q
    end
|}.

Definition example_new (model : string) : option (@CostCalculator Q) :=
  Some example_calculator.

Definition example_client : @OpenAIClient Q :=
  {| model := "gpt-4o-2024-08-06";
     cost_calculator := example_calculator;
     total_prompt_cost := 0%Q;
     total_completion_cost := 0%Q |}.

Definition example_state : @State Q := {| self := example_client; stdout := [] |}.

Definition plain_response : @ParsedChatCompletion string :=
  {| choices :=
       [ {| message_of :=
              {| content := Some "Hello!"; parsed := None; refusal := None |} |} ] |}.

Definition no_such_file (path : string) : string :=
  "[Errno 2] No such file or directory: '" +:+ path +:+ "'".

(** No file can be opened; the API answers. *)
Definition world_no_files : @World unit string :=
  {| open_rb := fun path => inl (no_such_file path);
     parse := fun _ => inr plain_response |}.


(** ["photo.jpg"] holds three bytes; the API answers. *)
Definition world_photo : @World unit string :=
  {| open_rb := fun path =>
       if String.eqb path "photo.jpg" then inr [xff; xd8; xff]
       else inl (no_such_file path);
     parse := fun _ => inr plain_response |}.

(** ["empty.jpg"] exists and holds no byte; the API answers. *)
Definition world_empty_photo : @World unit string :=
  {| open_rb := fun path =>
       if String.eqb path "empty.jpg" then inr []
       else inl (no_such_file path);
     parse := fun _ => inr plain_response |}.

(** The messages of a text-only call whose user text mentions the word
    [image_url], and of a call with the three bytes of ["photo.jpg"]
    attached. *)
Definition plain_messages : list message :=
  [Message "system" (Some (Str "You are a helpful assistant."));
   Message "user" (Some (Str "What does the image_url field hold?"))].

Definition image_messages : list message :=
  [Message "system" (Some (Str "s"));
   Message "user" (Some (two_part_content "u" [xff; xd8; xff]))].

(** ** Further notions and examples *)

(** No message holds a list under ["content"]; a message may lack the key. *)
Definition no_list_content (messages : list message) : Prop :=
  Forall (fun msg => forall ps, msg_content msg <> Some (Parts ps)) messages.

(** Every message holds a [str] under ["content"], and none of these texts
    contains [image_url]. *)
Definition plain_without_image_url (messages : list message) : Prop :=
  Forall (fun msg => exists s, msg_content msg = Some (Str s)
                               /\ str_contains "image_url" s = false) messages.

(** The test of line 73 on one message that holds a [str]. *)
Definition mentions_image_url (msg : message) : bool :=
  match msg_content msg with
  | Some (Str s) => str_contains "image_url" s
  | Some (Parts _) | None => false
  end.

(** A [response_format] class that holds a list of tags and defines
    [__len__] as their number: an instance without tags is falsy. *)
Record TagList : Type := { tags : list string }.

#[export] Instance TagList_Truthy : Truthy TagList :=
  fun t => match tags t with [] => false | _ :: _ => true end.

(** Two answers parsed into a [TagList]: one tag, and none. *)
Definition one_tag_response : @ParsedChatCompletion TagList :=
  {| choices :=
       [ {| message_of :=
              {| content := Some "{ tags: [urgent] }";
                 parsed := Some {| tags := ["urgent"] |};
                 refusal := None |} |} ] |}.

Definition no_tag_response : @ParsedChatCompletion TagList :=
  {| choices :=
       [ {| message_of :=
              {| content := Some "{ tags: [] }";
                 parsed := Some {| tags := [] |};
                 refusal := None |} |} ] |}.

(** A response whose first choice is a refusal. *)
Definition refusing_response : @ParsedChatCompletion string :=
  {| choices :=
       [ {| message_of :=
              {| content := None; parsed := None;
                 refusal := Some "I cannot help with that." |} |} ] |}.

(** No file can be opened; the model refuses. *)
Definition world_refusing : @World unit string :=
  {| open_rb := fun path => inl (no_such_file path);
     parse := fun _ => inr refusing_response |}.

(** * Properties of the methods *)

Section ClientFacts.

Context {F : Type} `{PyFloat F}.
Context {schema parsed_t : Type} `{Truthy parsed_t}.

Implicit Types (st : @State F) (w : @World schema parsed_t).
Implicit Types (response : option (@ParsedChatCompletion parsed_t)).
Implicit Types (messages : list message).

(** ** Which methods touch what *)

(** [_prepare_messages] never raises and returns a system message followed
    by a user message. *)
Lemma _prepare_messages_ok w system_message user_message image_path st :
  exists user_content st',
    _prepare_messages w system_message user_message image_path st
    = (Ok [Message "system" (Some (Str system_message));
           Message "user" (Some user_content)], st')
    /\ self st' = self st.
Proof.
  unfold _prepare_messages, bind, _encode_image, ret, print.
  destruct image_path as [path|]; [|eauto].
  destruct (truthy_str path); [|eauto].
  destruct (open_rb w path) as [e|bytes]; simpl; [eauto|].
  destruct (truthy_str (b64encode bytes)); eauto.
Qed.

Lemma _build_api_payload_ok messages (response_format : option schema)
    max_completion_tokens st :
  exists payload : gmap string (@pval schema),
    _build_api_payload messages response_format max_completion_tokens st
    = (Ok payload, st).
Proof. unfold _build_api_payload, bind, get_self, ret. eauto. Qed.

Lemma _build_api_payload_messages messages (response_format : option schema)
    max_completion_tokens st :
  exists payload : gmap string (@pval schema),
    _build_api_payload messages response_format max_completion_tokens st
    = (Ok payload, st)
    /\ payload !! "messages" = Some (PMessages messages).
Proof.
  unfold _build_api_payload, bind, get_self, ret.
  eexists. split; [reflexivity|].
  destruct response_format, max_completion_tokens as [n|]; simpl;
    try destruct (Z.eqb n 0); simpl; by simplify_map_eq.
Qed.

(** [_make_api_call] never raises: an exception of the API becomes [None]
    and one printed line. *)
Lemma _make_api_call_ok w (payload : gmap string (@pval schema)) st :
  exists response st',
    _make_api_call w payload st = (Ok response, st') /\ self st' = self st
    /\ match parse w payload with
       | inr r => response = Some r
       | inl _ => response = None
       end.
Proof.
  unfold _make_api_call, bind, print, ret.
  destruct (parse w payload); simpl; eauto.
Qed.

Lemma _handle_response_ok response st :
  exists result st',
    _handle_response response st = (Ok result, st') /\ self st' = self st.
Proof.
  unfold _handle_response, bind, print, ret.
  destruct response as [r|]; [|eauto].
  destruct (choices r) as [|first rest]; [eauto|]. cbv zeta.
  destruct (parsed (message_of first)) as [p|];
    [destruct (truthy p); [eauto|]|];
    (destruct (refusal (message_of first)) as [s|]; [|eauto];
     destruct (truthy_str s); simpl; eauto).
Qed.

(** [_calculate_cost] either raises at lines 72-73, before any total is
    touched, or charges the prompt and, when there is a first choice, the
    completion. *)
Lemma _calculate_cost_spec messages response st :
  _calculate_cost messages response st =
  match prompt_cost_args messages with
  | Raise e => (Raise e, st)
  | Ok (full_prompt, has_image) =>
      (Ok tt, {| self := charged (self st) full_prompt has_image response;
                 stdout := stdout st |})
  end.
Proof.
  unfold _calculate_cost, prompt_cost_args, bind, lift, get_self.
  destruct (join (contents_present messages)) as [full_prompt|e]; [|reflexivity].
  destruct (any_image_url messages) as [has_image|e]; [|reflexivity].
  unfold add_total_prompt_cost, add_total_completion_cost, ret, charged. simpl.
  destruct st as [c out]; simpl.
  destruct response as [r|]; simpl; [|destruct c; reflexivity].
  destruct (choices r) as [|first rest]; simpl; [destruct c; reflexivity|].
  reflexivity.
Qed.

(** [chat] as the composition of its five steps, with the intermediate
    values named. *)
Lemma chat_steps w system_message user_message image_path
    (response_format : option schema) max_completion_tokens st :
  exists messages st1 payload response st2 result st3,
    _prepare_messages w system_message user_message image_path st
      = (Ok messages, st1)
    /\ _build_api_payload messages response_format max_completion_tokens st1
      = (Ok payload, st1)
    /\ _make_api_call w payload st1 = (Ok response, st2)
    /\ match parse w payload with
       | inr r => response = Some r
       | inl _ => response = None
       end
    /\ _handle_response response st2 = (Ok result, st3)
    /\ self st1 = self st /\ self st2 = self st /\ self st3 = self st
    /\ chat w system_message user_message image_path response_format
         max_completion_tokens st
       = match _calculate_cost messages response st3 with
         | (Ok _, st4) => (Ok result, st4)
         | (Raise e, st4) => (Raise e, st4)
         end.
Proof.
  destruct (_prepare_messages_ok w system_message user_message image_path st)
    as (uc & st1 & Hp & Hs1).
  destruct (_build_api_payload_ok
              [Message "system" (Some (Str system_message));
               Message "user" (Some uc)]
              response_format max_completion_tokens st1) as (payload & Hb).
  destruct (_make_api_call_ok w payload st1) as (response & st2 & Hc & Hs2 & Hr).
  destruct (_handle_response_ok response st2) as (result & st3 & Hh & Hs3).
  eexists _, st1, payload, response, st2, result, st3.
  repeat split; try eassumption; try congruence.
  unfold chat, bind. rewrite Hp, Hb, Hc, Hh.
  destruct (_calculate_cost _ response st3) as [[[]|e] st4]; reflexivity.
Qed.

(** ** The response unwrapper *)

(** [_handle_response] as one equation on the first choice. *)
Lemma _handle_response_eq response st :
  _handle_response response st =
  match first_choice response with
  | Some first =>
      match parsed (message_of first), refusal (message_of first) with
      | Some p, r =>
          if truthy p then (Ok (ParsedResult p), st)
          else match r with
               | Some s =>
                   if truthy_str s then
                     (Ok (RefusalResult s),
                      {| self := self st;
                         stdout := stdout st
                                   ++ ["Model refused to process the request."] |})
                   else (Ok (RawResponse response), st)
               | None => (Ok (RawResponse response), st)
               end
      | None, Some s =>
          if truthy_str s then
            (Ok (RefusalResult s),
             {| self := self st;
                stdout := stdout st
                          ++ ["Model refused to process the request."] |})
          else (Ok (RawResponse response), st)
      | None, None => (Ok (RawResponse response), st)
      end
  | None => (Ok (RawResponse response), st)
  end.
Proof.
  unfold _handle_response, first_choice, bind, print, ret.
  destruct response as [r|]; [|reflexivity].
  destruct (choices r) as [|first rest]; [reflexivity|]. simpl.
  destruct (parsed (message_of first)) as [p|];
    [destruct (truthy p); [reflexivity|]|];
    (destruct (refusal (message_of first)) as [s|]; [|reflexivity];
     destruct (truthy_str s); reflexivity).
Qed.

(** C5 (amended): [_handle_response] has exactly three outcomes, decided
    on the first choice by the truth value of its attributes.  With a
    response that has at least one choice: a truthy parsed payload on the
    first choice is returned as it is; otherwise (no parsed payload, or a
    falsy one) a non-empty refusal text on the first choice is returned in
    place of the response, after one diagnostic line; and in every other
    case, an absent response and a response without choices included, the
    response argument itself is returned and nothing is printed.  The three
    cases are exhaustive, the client is never modified, and a falsy parsed
    payload is never returned. *)
Theorem _handle_response_three_outcomes response st :
  (forall first p,
      first_choice response = Some first ->
      parsed (message_of first) = Some p ->
      truthy p = true ->
      _handle_response response st = (Ok (ParsedResult p), st))
  /\ (forall first s,
      first_choice response = Some first ->
      truthy_opt (parsed (message_of first)) = false ->
      refusal (message_of first) = Some s ->
      truthy_str s = true ->
      _handle_response response st
      = (Ok (RefusalResult s),
         {| self := self st;
            stdout := stdout st ++ ["Model refused to process the request."] |}))
  /\ ((response = None
       \/ (exists r, response = Some r /\ choices r = [])
       \/ (exists first,
              first_choice response = Some first
              /\ truthy_opt (parsed (message_of first)) = false
              /\ truthy_opt_str (refusal (message_of first)) = false)) ->
      _handle_response response st = (Ok (RawResponse response), st))
  /\ ((exists first p,
         first_choice response = Some first
         /\ parsed (message_of first) = Some p /\ truthy p = true)
      \/ (exists first s,
         first_choice response = Some first
         /\ truthy_opt (parsed (message_of first)) = false
         /\ refusal (message_of first) = Some s /\ truthy_str s = true)
      \/ (response = None
          \/ (exists r, response = Some r /\ choices r = [])
          \/ (exists first,
                 first_choice response = Some first
                 /\ truthy_opt (parsed (message_of first)) = false
                 /\ truthy_opt_str (refusal (message_of first)) = false)))
  /\ (forall first p,
        first_choice response = Some first ->
        parsed (message_of first) = Some p ->
        truthy p = false ->
        forall p', (_handle_response response st).1 <> Ok (ParsedResult p')).
Proof.
  rewrite _handle_response_eq.
  split; [|split; [|split; [|split]]].
  - intros first p -> -> ->. reflexivity.
  - intros first s -> Hnp -> Hs.
    destruct (parsed (message_of first)) as [p|]; simpl in Hnp;
      rewrite ?Hnp, Hs; reflexivity.
  - intros [-> | [(r & -> & Hc) | (first & -> & Hnp & Hnr)]].
    + reflexivity.
    + unfold first_choice. rewrite Hc. reflexivity.
    + destruct (parsed (message_of first)) as [p|]; simpl in Hnp; rewrite ?Hnp;
        (destruct (refusal (message_of first)) as [s|]; simpl in Hnr;
         rewrite ?Hnr; reflexivity).
  - destruct (first_choice response) as [first|] eqn:Hf.
    + assert (Hcases :
        (exists p, parsed (message_of first) = Some p /\ truthy p = true)
        \/ truthy_opt (parsed (message_of first)) = false).
      { destruct (parsed (message_of first)) as [p|]; [|right; reflexivity].
        destruct (truthy p) eqn:Htp; [left; eauto | right; exact Htp]. }
      destruct Hcases as [(p & Hp & Htp) | Hnp]; [left; eauto|].
      right.
      destruct (refusal (message_of first)) as [s|] eqn:Hr.
      * destruct (truthy_str s) eqn:Hs.
        -- left. exists first, s. auto.
        -- right; right; right. exists first. rewrite Hr. auto.
      * right; right; right. exists first. rewrite Hr. auto.
    + right; right. destruct response as [r|]; [|left; reflexivity].
      right; left. exists r. split; [reflexivity|].
      unfold first_choice in Hf. destruct (choices r); [reflexivity | discriminate Hf].
  - intros first p -> -> -> p'.
    destruct (refusal (message_of first)) as [s|];
      [destruct (truthy_str s)|]; discriminate.
Qed.

(** ** Reporting the totals *)

(** C7: [print_total_costs] is read-only.  It never raises, leaves the
    client as it found it, and appends three lines to stdout; the combined
    total it prints is the float sum of the running prompt total and the
    running completion total.  A second call without a cost recording in
    between prints the same three lines again. *)
Theorem print_total_costs_read_only st :
  let first_call := print_total_costs st in
  let second_call := print_total_costs first_call.2 in
  first_call.1 = Ok tt
  /\ self first_call.2 = self st
  /\ stdout first_call.2 = stdout st ++ total_cost_lines (self st)
  /\ total_cost_lines (self st)
     = ["Total prompt cost: $" +:+ fmt6 (total_prompt_cost (self st));
        "Total completion cost: $" +:+ fmt6 (total_completion_cost (self st));
        "Overall total cost: $"
          +:+ fmt6 (fadd (total_prompt_cost (self st))
                         (total_completion_cost (self st)))]
  /\ second_call.1 = Ok tt
  /\ self second_call.2 = self st
  /\ stdout second_call.2 = stdout first_call.2 ++ total_cost_lines (self st).
Proof.
  unfold print_total_costs, total_cost_lines, bind, get_self, print.
  simpl. repeat split; rewrite <- ?app_assoc; reflexivity.
Qed.

(** ** The request payload *)

(** C10: in the payload built by [_build_api_payload], ["response_format"]
    and ["max_completion_tokens"] are each present exactly when the
    corresponding argument is truthy, and then hold the argument; a maximum
    of 0 is left out of the payload.  ["model"] and ["messages"] are always
    present, and building the payload changes nothing. *)
Theorem _build_api_payload_fields messages (response_format : option schema)
    (max_completion_tokens : option Z) st :
  exists payload : gmap string (@pval schema),
    _build_api_payload messages response_format max_completion_tokens st
    = (Ok payload, st)
    /\ (is_Some (payload !! "response_format")
        <-> truthy_opt_obj response_format = true)
    /\ (is_Some (payload !! "max_completion_tokens")
        <-> truthy_opt_int max_completion_tokens = true)
    /\ (forall rf, response_format = Some rf ->
          payload !! "response_format" = Some (PSchema rf))
    /\ (forall n, max_completion_tokens = Some n -> n <> 0%Z ->
          payload !! "max_completion_tokens" = Some (PInt n))
    /\ (max_completion_tokens = Some 0%Z ->
          payload !! "max_completion_tokens" = None)
    /\ payload !! "model" = Some (PStr (model (self st)))
    /\ payload !! "messages" = Some (PMessages messages).
Proof.
  unfold _build_api_payload, bind, get_self, ret.
  eexists. split; [reflexivity|].
  destruct response_format as [rf|], max_completion_tokens as [n|]; simpl;
    try destruct (Z.eqb_spec n 0) as [->|Hn]; simpl;
    repeat split; intros; simplify_map_eq;
    try done; try (by eexists); try (by destruct (is_Some_None _)).
Qed.

(** ** The request assembler *)

Lemma b64encode_truthy (bytes : list byte) :
  bytes <> [] -> truthy_str (b64encode bytes) = true.
Proof.
  destruct bytes as [|a [|b [|c rest]]]; [congruence | reflexivity ..].
Qed.


(** C9 (amended): every call assembles exactly two messages, the system
    message first and the user message second.  When a non-empty image path
    is supplied and its file is read and holds at least one byte, the user
    content is the two-part list, text part first and image part second,
    and nothing is printed.  A file of zero bytes is read and encoded to
    the empty string and then dropped: the user content is the plain text
    and nothing is printed; so it is without a path or with the empty
    path.  The user content is a list in no other case than the first. *)
Theorem _prepare_messages_shape w system_message user_message image_path st :
  (exists user_content st',
      _prepare_messages w system_message user_message image_path st
      = (Ok [Message "system" (Some (Str system_message));
             Message "user" (Some user_content)], st'))
  /\ (forall path bytes,
        image_path = Some path ->
        truthy_str path = true ->
        open_rb w path = inr bytes ->
        bytes <> [] ->
        _prepare_messages w system_message user_message image_path st
        = (Ok [Message "system" (Some (Str system_message));
               Message "user" (Some (two_part_content user_message bytes))],
           st))
  /\ (forall path,
        image_path = Some path ->
        open_rb w path = inr [] ->
        _encode_image w path st = (Ok (Some ""), st)
        /\ _prepare_messages w system_message user_message image_path st
           = (Ok [Message "system" (Some (Str system_message));
                  Message "user" (Some (Str user_message))],
              st))
  /\ (image_path = None \/ image_path = Some "" ->
      _prepare_messages w system_message user_message image_path st
      = (Ok [Message "system" (Some (Str system_message));
             Message "user" (Some (Str user_message))],
         st))
  /\ (forall ps st',
        _prepare_messages w system_message user_message image_path st
        = (Ok [Message "system" (Some (Str system_message));
               Message "user" (Some (Parts ps))], st') ->
        exists path bytes,
          image_path = Some path /\ truthy_str path = true
          /\ open_rb w path = inr bytes /\ bytes <> []
          /\ Parts ps = two_part_content user_message bytes).
Proof.
  split; [|split; [|split; [|split]]].
  - destruct (_prepare_messages_ok w system_message user_message image_path st)
      as (uc & st' & Hp & _).
    eauto.
  - intros path bytes -> Hpath Hopen Hbytes.
    unfold _prepare_messages, _encode_image, bind, ret.
    rewrite Hpath, Hopen. simpl.
    rewrite (b64encode_truthy bytes Hbytes). reflexivity.
  - intros path -> Hopen.
    unfold _prepare_messages, _encode_image, bind, ret.
    rewrite Hopen. simpl. split; [reflexivity|].
    destruct (truthy_str path); reflexivity.
  - intros [-> | ->]; reflexivity.
  - intros ps st'.
    unfold _prepare_messages, _encode_image, bind, ret, print.
    destruct image_path as [path|]; [|discriminate].
    destruct (truthy_str path) eqn:Hpath; [|discriminate].
    destruct (open_rb w path) as [e|bytes] eqn:Hopen; simpl; [discriminate|].
    destruct (truthy_str (b64encode bytes)) eqn:Hb; [|discriminate].
    intros [= <- <-]. exists path, bytes.
    repeat split; try assumption; try reflexivity.
    intros ->. discriminate Hb.
Qed.

(** C6 (amended): a call given a non-empty image path whose file cannot be
    read degrades to a text-only call.  [_encode_image] prints one
    diagnostic line, the user message is the raw user text with no image
    part, that is what the payload carries, and [chat] returns a result
    instead of raising.  The empty path is taken for no path at all: in
    every world, whatever its files, the messages are the text-only ones
    and nothing is printed while they are assembled, and the whole call is
    the call without an image path, so it consults no file. *)
Theorem unreadable_image_degrades_to_text w system_message user_message
    (response_format : option schema) max_completion_tokens st :
  (forall path e,
      truthy_str path = true ->
      open_rb w path = inl e ->
      degrades_to_text w system_message user_message path
        response_format max_completion_tokens st e)
  /\ (forall w' : @World schema parsed_t,
        _prepare_messages w' system_message user_message (Some "") st
        = (Ok [Message "system" (Some (Str system_message));
               Message "user" (Some (Str user_message))], st))
  /\ (forall w' : @World schema parsed_t,
        parse w' = parse w ->
        chat w' system_message user_message (Some "") response_format
          max_completion_tokens st
        = chat w system_message user_message None response_format
            max_completion_tokens st).
Proof.
  split; [|split].
  2:{ intros w'. reflexivity. }
  2:{ intros w' Hparse. unfold chat, bind, _make_api_call. simpl.
      rewrite Hparse. reflexivity. }
  intros path e Hpath Hopen.
  assert (Hprep :
    _prepare_messages w system_message user_message (Some path) st
    = (Ok [Message "system" (Some (Str system_message));
           Message "user" (Some (Str user_message))],
       {| self := self st;
          stdout := stdout st ++ ["Error encoding image: " +:+ e] |})).
  { unfold _prepare_messages, _encode_image, bind, ret, print.
    rewrite Hpath, Hopen. reflexivity. }
  unfold degrades_to_text. split; [exact Hprep|]. split.
  - unfold sent_payload, bind. rewrite Hprep.
    destruct (_build_api_payload_messages
                [Message "system" (Some (Str system_message));
                 Message "user" (Some (Str user_message))]
                response_format max_completion_tokens
                {| self := self st;
                   stdout := stdout st ++ ["Error encoding image: " +:+ e] |})
      as (payload & -> & Hm).
    eauto.
  - destruct (chat_steps w system_message user_message (Some path)
                response_format max_completion_tokens st)
      as (messages & st1 & payload & response & st2 & result & st3
          & Hp & _ & _ & _ & _ & _ & _ & _ & Hchat).
    rewrite Hchat, _calculate_cost_spec.
    rewrite Hprep in Hp. injection Hp as <- <-.
    unfold prompt_cost_args. simpl.
    destruct (str_contains "image_url" system_message);
      [|destruct (str_contains "image_url" user_message)]; eauto.
Qed.

(** ** Cost recording *)



(** The client after [chat] is the client after the cost recording of
    step 5. *)
Lemma chat_client w system_message user_message image_path
    (response_format : option schema) max_completion_tokens st :
  exists messages st1 payload response st3,
    _prepare_messages w system_message user_message image_path st
      = (Ok messages, st1)
    /\ sent_payload w system_message user_message image_path
         response_format max_completion_tokens st = Some payload
    /\ match parse w payload with
       | inr r => response = Some r
       | inl _ => response = None
       end
    /\ self st3 = self st
    /\ self (chat w system_message user_message image_path response_format
               max_completion_tokens st).2
       = self (_calculate_cost messages response st3).2.
Proof.
  destruct (chat_steps w system_message user_message image_path
              response_format max_completion_tokens st)
    as (messages & st1 & payload & response & st2 & result & st3
        & Hp & Hb & _ & Hr & _ & _ & _ & Hs3 & Hchat).
  exists messages, st1, payload, response, st3.
  repeat split; try assumption.
  - unfold sent_payload, bind. rewrite Hp, Hb. reflexivity.
  - rewrite Hchat.
    destruct (_calculate_cost messages response st3) as [[[]|e] st4]; reflexivity.
Qed.

(** ** Where cost recording raises *)

Lemma append_empty_r (s : string) : s +:+ "" = s.
Proof.
  induction s as [|a s IH]; [reflexivity|].
  change (String a (s +:+ "") = String a s). rewrite IH. reflexivity.
Qed.

(** On message lists whose contents are all plain text, line 72 computes
    the concatenation the specification describes. *)
Lemma join_plain_text messages i :
  all_plain_text messages ->
  join_from i (contents_present messages) = Ok (spec_full_prompt messages).
Proof.
  unfold all_plain_text, contents_present, spec_full_prompt.
  intros Hall. revert i.
  induction Hall as [|msg rest [s Hs] _ IH]; intros i; [reflexivity|].
  assert (Hm : message_text msg = s)
    by (unfold message_text; rewrite Hs; reflexivity).
  simpl. rewrite Hs. simpl. rewrite IH, Hm.
  destruct rest; simpl; [rewrite append_empty_r|]; reflexivity.
Qed.

(** A two-part user content makes line 72 raise, whatever the response. *)
Lemma _calculate_cost_raises_on_parts system_message ps response st :
  _calculate_cost
    [Message "system" (Some (Str system_message)); Message "user" (Some (Parts ps))]
    response st
  = (Raise (TypeError 1), st).
Proof. rewrite _calculate_cost_spec. reflexivity. Qed.

(** X10: whenever the image is attached (a non-empty path whose file is
    read and holds at least one byte), [chat] raises [TypeError] from its
    cost recording and the client is left as it was: no total is updated.
    The exception comes after the API call: the payload with the two-part
    user content was handed to the API, and the state [chat] ends in is the
    one reached after [_make_api_call] and [_handle_response], with their
    diagnostics on stdout; the unwrapped result is lost. *)
Lemma chat_raises_with_image w system_message user_message path bytes
    (response_format : option schema) max_completion_tokens st :
  truthy_str path = true ->
  open_rb w path = inr bytes ->
  bytes <> [] ->
  (chat w system_message user_message (Some path) response_format
     max_completion_tokens st).1 = Raise (TypeError 1)
  /\ self (chat w system_message user_message (Some path) response_format
             max_completion_tokens st).2 = self st
  /\ (exists payload response st2 result,
        sent_payload w system_message user_message (Some path)
          response_format max_completion_tokens st = Some payload
        /\ payload !! "messages"
           = Some (PMessages
                     [Message "system" (Some (Str system_message));
                      Message "user"
                        (Some (two_part_content user_message bytes))])
        /\ response = match parse w payload with
                      | inr r => Some r
                      | inl _ => None
                      end
        /\ _make_api_call w payload st = (Ok response, st2)
        /\ _handle_response response st2
           = (Ok result,
              (chat w system_message user_message (Some path) response_format
                 max_completion_tokens st).2)).
Proof.
  intros Hpath Hopen Hbytes.
  destruct (chat_steps w system_message user_message (Some path)
              response_format max_completion_tokens st)
    as (messages & st1 & payload & response & st2 & result & st3
        & Hp & Hb & Hc & Hr & Hh & _ & _ & Hs3 & Hchat).
  assert (Hprep :
    _prepare_messages w system_message user_message (Some path) st
    = (Ok [Message "system" (Some (Str system_message));
           Message "user" (Some (two_part_content user_message bytes))], st)).
  { unfold _prepare_messages, _encode_image, bind, ret.
    rewrite Hpath, Hopen. simpl.
    rewrite (b64encode_truthy bytes Hbytes). reflexivity. }
  rewrite Hprep in Hp. injection Hp as <- <-.
  unfold two_part_content in Hchat.
  rewrite _calculate_cost_raises_on_parts in Hchat.
  rewrite Hchat. simpl.
  split; [reflexivity|]. split; [exact Hs3|].
  exists payload, response, st2, result.
  split; [unfold sent_payload, bind; rewrite Hprep, Hb; reflexivity|].
  split.
  { destruct (_build_api_payload_messages
                [Message "system" (Some (Str system_message));
                 Message "user" (Some (two_part_content user_message bytes))]
                response_format max_completion_tokens st)
      as (payload' & Hb' & Hm).
    rewrite Hb in Hb'. injection Hb' as <-. exact Hm. }
  split; [destruct (parse w payload); congruence|].
  split; [exact Hc | exact Hh].
Qed.

(** ** A call whose API call raises *)




End ClientFacts.

(** ** The running totals never decrease *)

Section Totals.

Context {F : Type} `{PyFloatOrder F}.
Context {schema parsed_t : Type} `{Truthy parsed_t}.

Variable CostCalculator_new : string -> option (@CostCalculator F).

(** The estimators of [cost_calculator] return non-negative costs, as the
    specification of the cost accountant requires of them. *)
Hypothesis new_nonneg :
  forall model k, CostCalculator_new model = Some k -> nonneg_calculator k.

Implicit Types (st : @State F) (c : @OpenAIClient F).
Implicit Types (response : option (@ParsedChatCompletion parsed_t)).

Lemma __init___invariant model c :
  __init__ CostCalculator_new model = Some c -> cost_invariant c.
Proof.
  unfold __init__. destruct (CostCalculator_new model) as [k|] eqn:Hk; [|discriminate].
  intros [= <-]. split; [split; apply fle_zero|].
  simpl. eapply new_nonneg, Hk.
Qed.

Lemma charged_invariant c full_prompt has_image response :
  cost_invariant c -> cost_invariant (charged c full_prompt has_image response).
Proof.
  intros [[Hp Hc] [Hkp Hkc]]. split; [split|split]; simpl; auto.
  - apply fadd_nonneg; auto.
  - destruct (first_choice response); [apply fadd_nonneg|]; auto.
Qed.

Lemma charged_monotone c full_prompt has_image response :
  cost_invariant c ->
  fle (total_prompt_cost c)
      (total_prompt_cost (charged c full_prompt has_image response))
  /\ fle (total_completion_cost c)
         (total_completion_cost (charged c full_prompt has_image response)).
Proof.
  intros [[Hp Hc] [Hkp Hkc]]. split; simpl.
  - apply fadd_incr; auto.
  - destruct (first_choice response);
      [apply fadd_incr | apply fle_refl_nonneg]; auto.
Qed.

Lemma _calculate_cost_invariant messages response st :
  cost_invariant (self st) ->
  cost_invariant (self (_calculate_cost messages response st).2).
Proof.
  intros Hinv. rewrite _calculate_cost_spec.
  destruct (prompt_cost_args messages) as [[full_prompt has_image]|e]; simpl;
    [apply charged_invariant|]; exact Hinv.
Qed.

Lemma _calculate_cost_monotone messages response st :
  cost_invariant (self st) ->
  fle (total_prompt_cost (self st))
      (total_prompt_cost (self (_calculate_cost messages response st).2))
  /\ fle (total_completion_cost (self st))
         (total_completion_cost (self (_calculate_cost messages response st).2)).
Proof.
  intros Hinv. rewrite _calculate_cost_spec.
  destruct (prompt_cost_args messages) as [[full_prompt has_image]|e]; simpl.
  - apply charged_monotone, Hinv.
  - destruct Hinv as [[Hp Hc] _]. split; apply fle_refl_nonneg; assumption.
Qed.

Lemma reachable_invariant c :
  reachable (schema := schema) (parsed_t := parsed_t) CostCalculator_new c ->
  cost_invariant c.
Proof.
  induction 1 as [model c Hinit | c messages response out _ IH
                 | c w sm um ip rf mt out _ IH].
  - eapply __init___invariant, Hinit.
  - apply _calculate_cost_invariant, IH.
  - destruct (chat_client w sm um ip rf mt {| self := c; stdout := out |})
      as (messages & st1 & payload & response & st3 & _ & _ & _ & Hs3 & ->).
    apply _calculate_cost_invariant. rewrite Hs3. exact IH.
Qed.

(** C8: a freshly constructed client has both totals at zero, hence
    non-negative; and for every client a program can hold, a cost recording
    (whether it ends normally or raises) leaves each of the two totals
    greater than or equal to its value before, and non-negative again. *)
Theorem totals_never_decrease :
  (forall model c,
      __init__ CostCalculator_new model = Some c ->
      total_prompt_cost c = fzero /\ total_completion_cost c = fzero
      /\ totals_nonneg c)
  /\ (forall c,
        reachable (schema := schema) (parsed_t := parsed_t) CostCalculator_new c ->
        forall messages response out,
          let c' :=
            self (_calculate_cost messages response
                    {| self := c; stdout := out |}).2 in
          fle (total_prompt_cost c) (total_prompt_cost c')
          /\ fle (total_completion_cost c) (total_completion_cost c')
          /\ totals_nonneg c').
Proof.
  split.
  - intros model c Hinit. pose proof (__init___invariant model c Hinit) as [Hn _].
    unfold __init__ in Hinit.
    destruct (CostCalculator_new model); [|discriminate].
    injection Hinit as <-. auto.
  - intros c Hreach messages response out c'.
    pose proof (reachable_invariant c Hreach) as Hinv.
    pose proof (_calculate_cost_monotone messages response
                  {| self := c; stdout := out |} Hinv) as [Hp Hc].
    pose proof (_calculate_cost_invariant messages response
                  {| self := c; stdout := out |} Hinv) as [Hn _].
    auto.
Qed.

End Totals.

(** * The client run on examples *)

#[export] Instance Q_float_order : PyFloatOrder Q.
Proof.
  split; simpl; intros; lra.
Qed.

Lemma example_calculator_nonneg : nonneg_calculator example_calculator.
Proof.
  split.
  - intros full_prompt has_image. simpl.
    assert (0 <= Z.of_nat (String.length full_prompt) # 1)%Q
      by (unfold Qle; simpl; lia).
    destruct has_image; lra.
  - intros [t|]; simpl; [|lra].
    assert (0 <= Z.of_nat (String.length t) # 1)%Q
      by (unfold Qle; simpl; lia).
    lra.
Qed.

Lemma example_new_nonneg model k :
  example_new model = Some k -> nonneg_calculator k.
Proof. intros [= <-]. exact example_calculator_nonneg. Qed.

Lemma example_client_reachable :
  reachable (schema := unit) (parsed_t := string) example_new example_client.
Proof. apply reach_init with (model := "gpt-4o-2024-08-06"). reflexivity. Qed.

(** C1: [chat] does not catch what its cost recording raises.  With a
    readable, non-empty image file the user content is a list, the join of
    line 72 raises [TypeError], and the exception leaves [chat]. *)
Theorem chat_with_image_raises :
  open_rb world_photo "photo.jpg" = inr [xff; xd8; xff]
  /\ (_prepare_messages world_photo "s" "u" (Some "photo.jpg") example_state).1
     = Ok image_messages
  /\ (chat world_photo "s" "u" (Some "photo.jpg") None (Some 300%Z)
        example_state).1
     = Raise (TypeError 1).
Proof. repeat split. Qed.

(** C2: the flag computed on line 73 follows the text, not the parts.  A
    text-only call whose user text contains [image_url] gets [has_image]
    true although no message carries an image part; on a content list that
    does carry an image part the membership test is false, and the flag
    never reaches the estimator because line 72 has raised. *)
Theorem has_image_follows_text_not_parts :
  (spec_has_image plain_messages = false
   /\ any_image_url plain_messages = Ok true
   /\ prompt_cost_args plain_messages
      = Ok ("You are a helpful assistant.What does the image_url field hold?",
            true))
  /\ (spec_has_image image_messages = true
      /\ any_image_url image_messages = Ok false
      /\ prompt_cost_args image_messages = Raise (TypeError 1)).
Proof. repeat split. Qed.

(** C3: line 72 does not skip image parts.  For the messages of a call with
    an image attached the specification's prompt text is the concatenation
    of the two texts, but the join raises [TypeError] on the user content
    and no prompt text is handed to the estimator. *)
Theorem full_prompt_join_raises_on_parts :
  spec_full_prompt image_messages = "su"
  /\ join (contents_present image_messages) = Raise (TypeError 1)
  /\ prompt_cost_args image_messages = Raise (TypeError 1)
  /\ (_calculate_cost (F := Q) (parsed_t := string) image_messages
        (Some plain_response) example_state).1
     = Raise (TypeError 1).
Proof. repeat split. Qed.


(** ["missing.jpg"] cannot be opened: the call degrades to text. *)
Lemma unreadable_image_example :
  degrades_to_text world_no_files "s" "u" "missing.jpg" None (Some 300%Z)
    example_state (no_such_file "missing.jpg").
Proof.
  exact (proj1 (unreadable_image_degrades_to_text world_no_files "s" "u"
                  None (Some 300%Z) example_state)
           "missing.jpg" (no_such_file "missing.jpg") eq_refl eq_refl).
Defined.

(** The empty path: its file cannot be read, yet the guard of line 41
    takes it for no path at all, [_encode_image] is not called and no
    diagnostic is printed. *)
Lemma empty_path_prints_no_diagnostic :
  open_rb world_no_files "" = inl (no_such_file "")
  /\ stdout (chat world_no_files "s" "u" (Some "") None (Some 300%Z)
               example_state).2 = []
  /\ ~ degrades_to_text world_no_files "s" "u" "" None (Some 300%Z)
         example_state (no_such_file "").
Proof.
  repeat split.
  intros [Hprep _].
  apply (f_equal (fun r => stdout r.2)) in Hprep.
  discriminate Hprep.
Qed.

(** ["photo.jpg"] holds three bytes: the user content has two parts. *)
Lemma _prepare_messages_example :
  _prepare_messages world_photo "s" "u" (Some "photo.jpg") example_state
  = (Ok [Message "system" (Some (Str "s"));
         Message "user" (Some (two_part_content "u" [xff; xd8; xff]))],
     example_state).
Proof.
  apply (proj1 (proj2 (_prepare_messages_shape world_photo "s" "u"
                         (Some "photo.jpg") example_state))
           "photo.jpg" [xff; xd8; xff]);
    [reflexivity | reflexivity | reflexivity | discriminate].
Defined.

(** An empty image file is read and encoded without error, to the empty
    string, which the guard of line 43 takes for a failure: the user
    content is the plain text, not a two-part list. *)
Lemma empty_image_file_is_dropped :
  open_rb world_empty_photo "empty.jpg" = inr []
  /\ b64encode [] = ""
  /\ (_prepare_messages world_empty_photo "s" "u" (Some "empty.jpg")
        example_state).1
     = Ok [Message "system" (Some (Str "s")); Message "user" (Some (Str "u"))]
  /\ (_prepare_messages world_empty_photo "s" "u" (Some "empty.jpg")
        example_state).1
     <> Ok [Message "system" (Some (Str "s"));
            Message "user" (Some (two_part_content "u" []))].
Proof. repeat split. discriminate. Qed.

(** One recording on a freshly constructed client. *)
Lemma totals_never_decrease_example :
  let c' :=
    self (_calculate_cost (parsed_t := string) plain_messages
            (Some plain_response) example_state).2 in
  fle (total_prompt_cost example_client) (total_prompt_cost c')
  /\ fle (total_completion_cost example_client) (total_completion_cost c')
  /\ totals_nonneg c'.
Proof.
  exact (proj2 (totals_never_decrease (schema := unit) example_new example_new_nonneg)
           example_client example_client_reachable
           plain_messages (Some plain_response) []).
Defined.

(** * Further properties of the methods *)

Section MoreClientFacts.

Context {F : Type} `{PyFloat F}.
Context {schema parsed_t : Type} `{Truthy parsed_t}.

Implicit Types (st : @State F) (w : @World schema parsed_t).
Implicit Types (response : option (@ParsedChatCompletion parsed_t)).
Implicit Types (messages : list message).

(** ** Strings and base64 *)

Lemma append_cons a (s t : string) : String a s +:+ t = String a (s +:+ t).
Proof. reflexivity. Qed.

Lemma prefix_spec needle hay :
  String.prefix needle hay = true <-> exists post, hay = needle +:+ post.
Proof.
  revert hay. induction needle as [|a needle IH]; intros hay.
  - split; [intros _; exists hay; reflexivity | intros _; destruct hay; reflexivity].
  - destruct hay as [|b hay]; simpl.
    + split; [discriminate | intros [post Hpost]; discriminate Hpost].
    + destruct (ascii_dec a b) as [->|Hne].
      * rewrite IH. split; intros [post Hpost]; exists post.
        -- rewrite append_cons, <- Hpost. reflexivity.
        -- rewrite append_cons in Hpost. injection Hpost as ->. reflexivity.
      * split; [discriminate|].
        intros [post Hpost]. rewrite append_cons in Hpost. congruence.
Qed.

(** [str_contains] is the substring test. *)
Lemma str_contains_spec needle hay :
  str_contains needle hay = true
  <-> exists pre post, hay = pre +:+ needle +:+ post.
Proof.
  induction hay as [|a hay IH].
  - change (str_contains needle "")
      with (String.prefix needle "" || false).
    rewrite orb_true_iff, prefix_spec. split.
    + intros [[post Hpost] | Hf]; [|discriminate]. exists "", post. exact Hpost.
    + intros (pre & post & Hpre). left. exists post.
      destruct pre; [exact Hpre | discriminate Hpre].
  - change (str_contains needle (String a hay))
      with (String.prefix needle (String a hay) || str_contains needle hay).
    rewrite orb_true_iff, prefix_spec, IH. split.
    + intros [[post Hpost] | (pre & post & Hpre)].
      * exists "", post. exact Hpost.
      * exists (String a pre), post. rewrite append_cons, <- Hpre. reflexivity.
    + intros (pre & post & Hpre). destruct pre as [|b pre].
      * left. exists post. exact Hpre.
      * right. rewrite append_cons in Hpre. injection Hpre as -> ->.
        exists pre, post. reflexivity.
Qed.

Lemma b64encode_length_upto n : forall bs : list byte,
  (length bs <= n)%nat ->
  String.length (b64encode bs) = (4 * ((length bs + 2) / 3))%nat.
Proof.
  induction n as [n IH] using lt_wf_ind. intros bs Hn.
  destruct bs as [|a [|b [|c rest]]]; try reflexivity.
  change (b64encode (a :: b :: c :: rest)) with
    (String (b64_char (Byte.to_N a / 4))
      (String (b64_char ((Byte.to_N a mod 4) * 16 + Byte.to_N b / 16))
         (String (b64_char ((Byte.to_N b mod 16) * 4 + Byte.to_N c / 64))
            (String (b64_char (Byte.to_N c mod 64)) (b64encode rest))))).
  cbn [String.length]. simpl length in *.
  rewrite (IH (length rest)) by lia.
  replace (S (S (S (length rest))) + 2)%nat
    with (length rest + 2 + 1 * 3)%nat by lia.
  rewrite Nat.div_add by lia. lia.
Qed.

(** ** Reading and encoding the image *)

(** X1: [_encode_image] never raises and never touches the client.  When
    the file cannot be read it prints one diagnostic and returns [None].
    When the file is read it prints nothing and returns the base64 text of
    the bytes, which has four characters for every started group of three
    bytes and is truthy exactly when the file holds at least one byte. *)
Theorem _encode_image_outcomes w path st :
  (forall e,
      open_rb w path = inl e ->
      _encode_image w path st
      = (Ok None,
         {| self := self st;
            stdout := stdout st ++ ["Error encoding image: " +:+ e] |}))
  /\ (forall bytes,
        open_rb w path = inr bytes ->
        _encode_image w path st = (Ok (Some (b64encode bytes)), st)
        /\ String.length (b64encode bytes) = (4 * ((length bytes + 2) / 3))%nat
        /\ (truthy_str (b64encode bytes) = true <-> bytes <> [])).
Proof.
  unfold _encode_image, bind, print, ret. split.
  - intros e ->. reflexivity.
  - intros bytes ->. split; [reflexivity|]. split.
    + apply (b64encode_length_upto (length bytes)). lia.
    + split; [|apply b64encode_truthy].
      intros Ht ->. discriminate Ht.
Qed.

(** ** What a call prints *)






(** ** What a call leaves alone *)

(** X3: the model name and the cost calculator of a client are fixed at
    construction: [chat], [_calculate_cost] and [print_total_costs] leave
    both as they are, whether they return or raise. *)
Theorem client_configuration_is_stable w system_message user_message image_path
    (response_format : option schema) max_completion_tokens messages response st :
  let after_chat :=
    self (chat w system_message user_message image_path response_format
            max_completion_tokens st).2 in
  let after_record := self (_calculate_cost messages response st).2 in
  let after_print := self (print_total_costs st).2 in
  (model after_chat = model (self st)
   /\ cost_calculator after_chat = cost_calculator (self st))
  /\ (model after_record = model (self st)
      /\ cost_calculator after_record = cost_calculator (self st))
  /\ after_print = self st.
Proof.
  assert (Hrec : forall ms (r : option (@ParsedChatCompletion parsed_t)) st0,
             model (self (_calculate_cost ms r st0).2) = model (self st0)
             /\ cost_calculator (self (_calculate_cost ms r st0).2)
                = cost_calculator (self st0)).
  { intros ms r st0. rewrite _calculate_cost_spec.
    destruct (prompt_cost_args ms) as [[full_prompt has_image]|e]; split; reflexivity. }
  repeat split; try apply Hrec.
  - destruct (chat_client w system_message user_message image_path
                response_format max_completion_tokens st)
      as (ms & st1 & payload & r & st3 & _ & _ & _ & Hs3 & ->).
    rewrite <- Hs3. apply Hrec.
  - destruct (chat_client w system_message user_message image_path
                response_format max_completion_tokens st)
      as (ms & st1 & payload & r & st3 & _ & _ & _ & Hs3 & ->).
    rewrite <- Hs3. apply Hrec.
Qed.

(** ** The keys of the payload *)

(** X4: the payload holds the keys ["model"] and ["messages"], plus
    ["response_format"] and ["max_completion_tokens"] for truthy arguments,
    and no other key: between two and four entries.  A negative maximum is
    truthy and is forwarded as it is. *)
Theorem _build_api_payload_keys messages (response_format : option schema)
    (max_completion_tokens : option Z) st :
  exists payload : gmap string (@pval schema),
    _build_api_payload messages response_format max_completion_tokens st
    = (Ok payload, st)
    /\ dom payload
       = {["model"; "messages"]}
         ∪ (if truthy_opt_obj response_format
            then {["response_format"]} else ∅)
         ∪ (if truthy_opt_int max_completion_tokens
            then {["max_completion_tokens"]} else (∅ : gset string))
    /\ (2 <= size payload <= 4)%nat
    /\ (forall n, max_completion_tokens = Some n -> (n < 0)%Z ->
          payload !! "max_completion_tokens" = Some (PInt n)).
Proof.
  unfold _build_api_payload, bind, get_self, ret.
  eexists. split; [reflexivity|].
  destruct response_format as [rf|], max_completion_tokens as [n|]; simpl;
    try destruct (Z.eqb_spec n 0) as [->|Hn]; simpl;
    (split; [rewrite ?dom_insert_L, dom_singleton_L; set_solver|]);
    (split; [rewrite ?map_size_insert_None, map_size_singleton
               by (by simplify_map_eq); lia|]);
    intros m Hm Hneg; simplify_map_eq; try lia; done.
Qed.

(** ** Cost recording on text *)

Lemma any_image_url_plain messages :
  all_plain_text messages ->
  any_image_url messages = Ok (existsb mentions_image_url messages).
Proof.
  unfold all_plain_text.
  induction 1 as [|msg rest [s Hs] _ IH]; [reflexivity|].
  simpl. unfold mentions_image_url at 1. rewrite Hs. simpl.
  destruct (str_contains "image_url" s); [reflexivity | exact IH].
Qed.

(** Line 72 on messages none of which holds a list: the texts of the
    messages that have a content, in order. *)
Lemma join_no_list messages i :
  no_list_content messages ->
  join_from i (contents_present messages) = Ok (spec_full_prompt messages).
Proof.
  unfold no_list_content, contents_present, spec_full_prompt.
  intros Hall. revert i.
  induction Hall as [|msg rest Hmsg _ IH]; intros i; [reflexivity|].
  assert (Hm : message_text msg
               = match msg_content msg with Some (Str s) => s | _ => "" end).
  { unfold message_text. destruct (msg_content msg) as [[s|ps]|]; try reflexivity.
    destruct (Hmsg ps eq_refl). }
  simpl. destruct (msg_content msg) as [[s|ps]|] eqn:Hc.
  - simpl. rewrite IH, Hm.
    destruct rest; simpl; [rewrite append_empty_r|]; reflexivity.
  - destruct (Hmsg ps eq_refl).
  - rewrite IH, Hm. destruct rest; reflexivity.
Qed.

Lemma plain_without_image_url_no_list messages :
  plain_without_image_url messages -> no_list_content messages.
Proof.
  unfold plain_without_image_url, no_list_content.
  intros Hall. eapply Forall_impl; [exact Hall|].
  intros msg (s & Hs & _) ps. congruence.
Qed.

(** Messages that do not satisfy the test of line 73 are passed over. *)
Lemma any_image_url_passes before rest :
  plain_without_image_url before ->
  any_image_url (before ++ rest) = any_image_url rest.
Proof.
  unfold plain_without_image_url.
  induction 1 as [|msg before' (s & Hs & Hno) _ IH]; [reflexivity|].
  simpl. rewrite Hs. simpl. rewrite Hno. exact IH.
Qed.

Lemma _calculate_cost_text_only system_message user_message response st :
  _calculate_cost
    [Message "system" (Some (Str system_message));
     Message "user" (Some (Str user_message))] response st
  = (Ok tt,
     {| self := charged (self st) (system_message +:+ user_message)
                  (str_contains "image_url" system_message
                   || str_contains "image_url" user_message) response;
        stdout := stdout st |}).
Proof.
  rewrite _calculate_cost_spec. unfold prompt_cost_args, join, contents_present.
  simpl. rewrite append_empty_r.
  destruct (str_contains "image_url" system_message),
           (str_contains "image_url" user_message); reflexivity.
Qed.

(** X5: on messages that all hold a plain [str], cost recording never
    raises and prints nothing: the prompt text handed to the estimator is
    the concatenation of the texts in order, the prompt total grows by the
    estimate for that text and the flag of line 73, and the completion
    total grows by the estimate for the text of the first choice, if there
    is one. *)
Theorem _calculate_cost_plain_text messages response st :
  all_plain_text messages ->
  exists has_image,
    prompt_cost_args messages = Ok (spec_full_prompt messages, has_image)
    /\ _calculate_cost messages response st
       = (Ok tt,
          {| self := charged (self st) (spec_full_prompt messages) has_image
                       response;
             stdout := stdout st |}).
Proof.
  intros Hplain. exists (existsb mentions_image_url messages).
  assert (Hargs : prompt_cost_args messages
                  = Ok (spec_full_prompt messages,
                        existsb mentions_image_url messages)).
  { unfold prompt_cost_args, join.
    rewrite (join_plain_text messages 0 Hplain), (any_image_url_plain messages Hplain).
    reflexivity. }
  split; [exact Hargs|].
  rewrite _calculate_cost_spec, Hargs. reflexivity.
Qed.

(** X6: on messages that all hold a plain [str], the flag computed on line
    73 is true exactly when the text of some message contains the nine
    characters [image_url] somewhere. *)
Theorem has_image_is_a_substring_test messages :
  all_plain_text messages ->
  exists has_image,
    any_image_url messages = Ok has_image
    /\ (has_image = true
        <-> exists msg pre post,
              In msg messages
              /\ msg_content msg = Some (Str (pre +:+ "image_url" +:+ post))).
Proof.
  intros Hplain. exists (existsb mentions_image_url messages).
  split; [apply any_image_url_plain, Hplain|].
  rewrite existsb_exists. split.
  - intros (msg & Hin & Hm). unfold mentions_image_url in Hm.
    destruct (msg_content msg) as [[s|ps]|] eqn:Hc; try discriminate.
    apply str_contains_spec in Hm as (pre & post & ->). eauto.
  - intros (msg & pre & post & Hin & Hc). exists msg. split; [exact Hin|].
    unfold mentions_image_url. rewrite Hc. apply str_contains_spec. eauto.
Qed.

(** X7: a message without a ["content"] key is filtered by line 72 but
    subscripted by line 73.  When no earlier text contains [image_url] and
    no message holds a list, cost recording raises [KeyError] and leaves
    the client and stdout as they were. *)
Theorem _calculate_cost_missing_content before msg after response st :
  plain_without_image_url before ->
  msg_content msg = None ->
  no_list_content after ->
  _calculate_cost (before ++ msg :: after) response st
  = (Raise (KeyError "content"), st).
Proof.
  intros Hbefore Hmsg Hafter.
  assert (Hall : no_list_content (before ++ msg :: after)).
  { apply Forall_app_2; [apply plain_without_image_url_no_list, Hbefore|].
    apply List.Forall_cons; [|exact Hafter]. intros ps. congruence. }
  rewrite _calculate_cost_spec. unfold prompt_cost_args, join.
  rewrite (join_no_list _ 0 Hall), (any_image_url_passes before _ Hbefore).
  simpl. rewrite Hmsg. reflexivity.
Qed.

(** X8: the scan of line 73 stops at the first text that contains
    [image_url].  Messages after it are not subscripted, so one without a
    ["content"] key is passed over in silence: the recording succeeds with
    the flag set, on the texts of the messages that have a content. *)
Theorem _calculate_cost_stops_at_first_hit before hit s rest response st :
  plain_without_image_url before ->
  msg_content hit = Some (Str s) ->
  str_contains "image_url" s = true ->
  no_list_content rest ->
  _calculate_cost (before ++ hit :: rest) response st
  = (Ok tt,
     {| self := charged (self st) (spec_full_prompt (before ++ hit :: rest))
                  true response;
        stdout := stdout st |}).
Proof.
  intros Hbefore Hhit Hs Hrest.
  assert (Hall : no_list_content (before ++ hit :: rest)).
  { apply Forall_app_2; [apply plain_without_image_url_no_list, Hbefore|].
    apply List.Forall_cons; [|exact Hrest]. intros ps. congruence. }
  rewrite _calculate_cost_spec. unfold prompt_cost_args, join.
  rewrite (join_no_list _ 0 Hall), (any_image_url_passes before _ Hbefore).
  simpl. rewrite Hhit. simpl. rewrite Hs. reflexivity.
Qed.

(** ** A whole call on text *)

(** X9: a call whose assembled messages are text only (no image path, an
    unreadable or an empty file) never raises.  It sends the payload to the
    API, returns what [_handle_response] makes of the answer ([None] when
    the API call raised), and charges the prompt for the system text
    followed by the user text, with the flag set when either text contains
    [image_url], and the completion for the first choice of the answer. *)
Theorem chat_text_only w system_message user_message image_path
    (response_format : option schema) max_completion_tokens st st1 :
  _prepare_messages w system_message user_message image_path st
  = (Ok [Message "system" (Some (Str system_message));
         Message "user" (Some (Str user_message))], st1) ->
  exists payload response st2 result st3,
    sent_payload w system_message user_message image_path
      response_format max_completion_tokens st = Some payload
    /\ response = match parse w payload with
                  | inr r => Some r
                  | inl _ => None
                  end
    /\ _make_api_call w payload st1 = (Ok response, st2)
    /\ _handle_response response st2 = (Ok result, st3)
    /\ chat w system_message user_message image_path response_format
         max_completion_tokens st
       = (Ok result,
          {| self := charged (self st) (system_message +:+ user_message)
                       (str_contains "image_url" system_message
                        || str_contains "image_url" user_message) response;
             stdout := stdout st3 |}).
Proof.
  intros Hprep.
  destruct (chat_steps w system_message user_message image_path
              response_format max_completion_tokens st)
    as (messages & st1' & payload & response & st2 & result & st3
        & Hp & Hb & Hc & Hr & Hh & _ & _ & Hs3 & Hchat).
  rewrite Hprep in Hp. injection Hp as <- <-.
  exists payload, response, st2, result, st3.
  split; [unfold sent_payload, bind; rewrite Hprep, Hb; reflexivity|].
  split; [destruct (parse w payload); congruence|].
  split; [exact Hc|]. split; [exact Hh|].
  rewrite Hchat, _calculate_cost_text_only, Hs3. reflexivity.
Qed.

(** X11: a refusal is charged like any other answer.  On a text-only call
    that the model refuses, [chat] prints the refusal notice and returns
    the refusal text, and both totals are charged: the prompt as usual,
    the completion for the content of the refusing first choice. *)
Theorem chat_refused_is_still_charged w system_message user_message image_path
    (response_format : option schema) max_completion_tokens st st1
    payload r first rest s :
  _prepare_messages w system_message user_message image_path st
  = (Ok [Message "system" (Some (Str system_message));
         Message "user" (Some (Str user_message))], st1) ->
  sent_payload w system_message user_message image_path
    response_format max_completion_tokens st = Some payload ->
  parse w payload = inr r ->
  choices r = first :: rest ->
  parsed (message_of first) = None ->
  refusal (message_of first) = Some s ->
  truthy_str s = true ->
  chat w system_message user_message image_path response_format
    max_completion_tokens st
  = (Ok (RefusalResult s),
     {| self :=
          {| model := model (self st);
             cost_calculator := cost_calculator (self st);
             total_prompt_cost :=
               fadd (total_prompt_cost (self st))
                    (calculate_prompt_cost (cost_calculator (self st))
                       (system_message +:+ user_message)
                       (str_contains "image_url" system_message
                        || str_contains "image_url" user_message));
             total_completion_cost :=
               fadd (total_completion_cost (self st))
                    (calculate_completion_cost (cost_calculator (self st))
                       (content (message_of first))) |};
        stdout := stdout st1 ++ ["Model refused to process the request."] |}).
Proof.
  intros Hprep Hsent Hparse Hchoices Hparsed Hrefusal Htruthy.
  destruct (chat_steps w system_message user_message image_path
              response_format max_completion_tokens st)
    as (messages & st1' & payload' & response & st2 & result & st3
        & Hp & Hb & Hc & Hr & Hh & _ & _ & Hs3 & Hchat).
  rewrite Hprep in Hp. injection Hp as <- <-.
  unfold sent_payload, bind in Hsent. rewrite Hprep, Hb in Hsent.
  injection Hsent as <-.
  rewrite Hparse in Hr. subst response.
  unfold _make_api_call in Hc. rewrite Hparse in Hc. injection Hc as <-.
  unfold _handle_response, bind, print, ret in Hh.
  rewrite Hchoices, Hparsed, Hrefusal, Htruthy in Hh. simpl in Hh.
  injection Hh as <- <-.
  simpl in Hs3.
  rewrite Hchat, _calculate_cost_text_only. simpl. rewrite Hs3.
  unfold charged, first_choice. simpl. rewrite Hchoices. reflexivity.
Qed.

(** ** Recordings in sequence *)

Lemma prompt_cost_args_plain messages :
  all_plain_text messages ->
  prompt_cost_args messages
  = Ok (spec_full_prompt messages, existsb mentions_image_url messages).
Proof.
  intros Hplain. unfold prompt_cost_args, join.
  rewrite (join_plain_text messages 0 Hplain), (any_image_url_plain messages Hplain).
  reflexivity.
Qed.

(** X12: costs accumulate from one recording to the next.  After two
    recordings of plain-text messages the client is the one charged for the
    first exchange and then for the second, both estimated by the same
    calculator: the prompt total is the old total plus the first estimate
    plus the second, added in that order. *)
Theorem recordings_accumulate messages1 response1 messages2 response2 st :
  all_plain_text messages1 ->
  all_plain_text messages2 ->
  let k := cost_calculator (self st) in
  let cost1 := calculate_prompt_cost k (spec_full_prompt messages1)
                 (existsb mentions_image_url messages1) in
  let cost2 := calculate_prompt_cost k (spec_full_prompt messages2)
                 (existsb mentions_image_url messages2) in
  let st1 := (_calculate_cost messages1 response1 st).2 in
  let st2 := (_calculate_cost messages2 response2 st1).2 in
  self st2
  = charged
      (charged (self st) (spec_full_prompt messages1)
         (existsb mentions_image_url messages1) response1)
      (spec_full_prompt messages2)
      (existsb mentions_image_url messages2) response2
  /\ total_prompt_cost (self st2)
     = fadd (fadd (total_prompt_cost (self st)) cost1) cost2
  /\ stdout st2 = stdout st.
Proof.
  intros Hplain1 Hplain2. simpl.
  rewrite !_calculate_cost_spec, (prompt_cost_args_plain messages1 Hplain1). simpl.
  rewrite (prompt_cost_args_plain messages2 Hplain2). simpl.
  repeat split.
Qed.

End MoreClientFacts.

(** ** The further properties on examples *)

(** A tool message without content after two plain texts. *)
Lemma missing_content_example :
  _calculate_cost (F := Q) (parsed_t := string)
    ([Message "system" (Some (Str "s")); Message "user" (Some (Str "u"))]
     ++ Message "tool" None :: [])
    (Some plain_response) example_state
  = (Raise (KeyError "content"), example_state).
Proof.
  apply (_calculate_cost_missing_content
           [Message "system" (Some (Str "s")); Message "user" (Some (Str "u"))]
           (Message "tool" None) []).
  - repeat (apply List.Forall_cons; [eexists; split; reflexivity|]).
    apply List.Forall_nil.
  - reflexivity.
  - apply List.Forall_nil.
Defined.

(** The same tool message after a text that mentions [image_url]. *)
Lemma stops_at_first_hit_example :
  _calculate_cost (F := Q) (parsed_t := string)
    ([Message "system" (Some (Str "s"))]
     ++ Message "user" (Some (Str "see image_url")) :: [Message "tool" None])
    (Some plain_response) example_state
  = (Ok tt,
     {| self := charged example_client "ssee image_url" true (Some plain_response);
        stdout := [] |}).
Proof.
  apply (_calculate_cost_stops_at_first_hit
           [Message "system" (Some (Str "s"))]
           (Message "user" (Some (Str "see image_url"))) "see image_url"
           [Message "tool" None]).
  - repeat (apply List.Forall_cons; [eexists; split; reflexivity|]).
    apply List.Forall_nil.
  - reflexivity.
  - reflexivity.
  - apply List.Forall_cons; [intros ps; discriminate | apply List.Forall_nil].
Defined.

Lemma plain_messages_all_plain : all_plain_text plain_messages.
Proof.
  repeat (apply List.Forall_cons; [eexists; reflexivity|]). apply List.Forall_nil.
Qed.

(** One recording of a text-only exchange. *)
Lemma _calculate_cost_plain_text_example :
  exists has_image,
    prompt_cost_args plain_messages
    = Ok ("You are a helpful assistant.What does the image_url field hold?",
          has_image)
    /\ _calculate_cost (parsed_t := string) plain_messages
         (Some plain_response) example_state
       = (Ok tt,
          {| self := charged example_client
                       "You are a helpful assistant.What does the image_url field hold?"
                       has_image (Some plain_response);
             stdout := [] |}).
Proof.
  exact (_calculate_cost_plain_text (F := Q) (parsed_t := string)
           plain_messages (Some plain_response) example_state
           plain_messages_all_plain).
Defined.

(** The flag for the same exchange. *)
Lemma has_image_substring_example :
  exists has_image,
    any_image_url plain_messages = Ok has_image
    /\ (has_image = true
        <-> exists msg pre post,
              In msg plain_messages
              /\ msg_content msg = Some (Str (pre +:+ "image_url" +:+ post))).
Proof.
  exact (has_image_is_a_substring_test plain_messages plain_messages_all_plain).
Defined.

(** A text-only call answered by the API. *)
Lemma chat_text_only_example :
  exists payload response st2 result st3,
    sent_payload world_no_files "s" "u" None None (Some 300%Z) example_state
    = Some payload
    /\ response = match parse world_no_files payload with
                  | inr r => Some r
                  | inl _ => None
                  end
    /\ _make_api_call world_no_files payload example_state = (Ok response, st2)
    /\ _handle_response response st2 = (Ok result, st3)
    /\ chat world_no_files "s" "u" None None (Some 300%Z) example_state
       = (Ok result,
          {| self := charged example_client "su" false response;
             stdout := stdout st3 |}).
Proof.
  exact (chat_text_only world_no_files "s" "u" None None (Some 300%Z)
           example_state example_state eq_refl).
Defined.

(** A call with the three bytes of ["photo.jpg"] attached. *)
Lemma chat_raises_with_image_example :
  (chat world_photo "s" "u" (Some "photo.jpg") None (Some 300%Z)
     example_state).1 = Raise (TypeError 1)
  /\ self (chat world_photo "s" "u" (Some "photo.jpg") None (Some 300%Z)
             example_state).2 = example_client
  /\ (exists payload response st2 result,
        sent_payload world_photo "s" "u" (Some "photo.jpg") None (Some 300%Z)
          example_state = Some payload
        /\ payload !! "messages" = Some (PMessages image_messages)
        /\ response = match parse world_photo payload with
                      | inr r => Some r
                      | inl _ => None
                      end
        /\ _make_api_call world_photo payload example_state
           = (Ok response, st2)
        /\ _handle_response response st2
           = (Ok result,
              (chat world_photo "s" "u" (Some "photo.jpg") None (Some 300%Z)
                 example_state).2)).
Proof.
  apply (chat_raises_with_image world_photo "s" "u" "photo.jpg" [xff; xd8; xff]
           None (Some 300%Z) example_state);
    [reflexivity | reflexivity | discriminate].
Defined.

(** A text-only call that the model refuses. *)
Lemma chat_refused_example :
  chat world_refusing "s" "u" None None (Some 300%Z) example_state
  = (Ok (RefusalResult "I cannot help with that."),
     {| self :=
          {| model := "gpt-4o-2024-08-06";
             cost_calculator := example_calculator;
             total_prompt_cost :=
               fadd 0%Q (calculate_prompt_cost example_calculator "su" false);
             total_completion_cost :=
               fadd 0%Q (calculate_completion_cost example_calculator None) |};
        stdout := ["Model refused to process the request."] |}).
Proof.
  refine (chat_refused_is_still_charged world_refusing "s" "u" None None
            (Some 300%Z) example_state example_state _ refusing_response
            _ [] "I cannot help with that."
            eq_refl eq_refl eq_refl eq_refl eq_refl eq_refl eq_refl).
Defined.

(** Two recordings of the same text-only exchange, the second without a
    response. *)
Lemma recordings_accumulate_example :
  total_prompt_cost
    (self (_calculate_cost (parsed_t := string) plain_messages None
             (_calculate_cost plain_messages (Some plain_response)
                example_state).2).2)
  = fadd (fadd 0%Q
            (calculate_prompt_cost example_calculator
               (spec_full_prompt plain_messages)
               (existsb mentions_image_url plain_messages)))
         (calculate_prompt_cost example_calculator
            (spec_full_prompt plain_messages)
            (existsb mentions_image_url plain_messages)).
Proof.
  exact (proj1 (proj2 (recordings_accumulate (F := Q) (parsed_t := string)
                         plain_messages (Some plain_response)
                         plain_messages None example_state
                         plain_messages_all_plain plain_messages_all_plain))).
Defined.

(** A parsed payload with one tag is returned as it is. *)
Lemma _handle_response_example :
  _handle_response (F := Q) (Some one_tag_response) example_state
  = (Ok (ParsedResult {| tags := ["urgent"] |}), example_state).
Proof.
  exact (proj1 (_handle_response_three_outcomes (F := Q)
                  (Some one_tag_response) example_state)
           _ {| tags := ["urgent"] |} eq_refl eq_refl eq_refl).
Defined.

(** The first choice carries a parsed payload, but an empty, hence falsy,
    one: the test of line 89 fails and the raw response is returned in
    place of the payload. *)
Lemma falsy_parsed_payload_is_not_returned :
  (exists first,
      first_choice (Some no_tag_response) = Some first
      /\ parsed (message_of first) = Some {| tags := [] |})
  /\ _handle_response (F := Q) (Some no_tag_response) example_state
     = (Ok (RawResponse (Some no_tag_response)), example_state)
  /\ (_handle_response (F := Q) (Some no_tag_response) example_state).1
     <> Ok (ParsedResult {| tags := [] |}).
Proof.
  split; [eexists; split; reflexivity|].
  split; [reflexivity | discriminate].
Qed.
